(** * agenta-cli backend client: a shallow embedding of [agenta/client/client.py]

    The module is a flat collection of request functions.  Each one builds a
    URL, performs one blocking HTTP call, inspects the status code and either
    raises or returns (part of) the parsed JSON body.

    The embedding keeps that shape:
    - JSON values and the text Python prints for them ([py_str], used by the
      f-strings that build the error messages);
    - Python exceptions as a datatype, results as [Exn + A];
    - the outside world (backend, file system, open handles, requests sent)
      as an explicit [World] threaded through a small state-and-error monad. *)

From Stdlib Require Import ZArith String List Ascii Bool DecimalString Lia.
Import ListNotations.
Open Scope string_scope.

#[local] Set Warnings "-register-all".

(** ** Text helpers *)

(** [contains sub s]: [sub] occurs in [s] as a contiguous piece. *)
Definition contains (sub s : string) : Prop :=
  exists pre post, s = pre ++ sub ++ post.

(** The same as a test: [sub] starts [s], or occurs further on. *)
Fixpoint occurs (sub s : string) : bool :=
  String.prefix sub s
  || match s with
     | EmptyString => false
     | String _ rest => occurs sub rest
     end.

(** Python's [sep.join(parts)]. *)
Fixpoint join (sep : string) (parts : list string) : string :=
  match parts with
  | [] => ""
  | [p] => p
  | p :: rest => p ++ sep ++ join sep rest
  end.

(** Decimal text of an integer, as [str(int)] gives it. *)
Definition str_int (z : Z) : string := NilZero.string_of_int (Z.to_int z).

Definition hex_digit (n : nat) : ascii :=
  match n with
  | 0 => "0" | 1 => "1" | 2 => "2" | 3 => "3" | 4 => "4"
  | 5 => "5" | 6 => "6" | 7 => "7" | 8 => "8" | 9 => "9"
  | 10 => "a" | 11 => "b" | 12 => "c" | 13 => "d" | 14 => "e"
  | _ => "f"
  end%char.

Fixpoint mem_char (c : ascii) (s : string) : bool :=
  match s with
  | EmptyString => false
  | String d rest => Ascii.eqb c d || mem_char c rest
  end.

(** The double quote character. *)
Definition dquote : ascii := ascii_of_nat 34.

(** The quote character [repr] of a [str] picks: a double quote when the text
    has a single quote and no double quote, a single quote otherwise. *)
Definition repr_quote (s : string) : ascii :=
  if mem_char "'"%char s && negb (mem_char dquote s)
  then dquote else "'"%char.

(** One character of [repr(str)], a character standing for the code point
    of its number (so for the code points below 256).  Besides the quote and
    the backslash, what is not printable is escaped: the controls below 32,
    127 to 160 (delete, the C1 controls, the no-break space) and 173 (the
    soft hyphen). *)
Definition repr_char (q c : ascii) : string :=
  let n := nat_of_ascii c in
  if Ascii.eqb c q || Ascii.eqb c "\"%char then String "\"%char (String c "")
  else if Nat.eqb n 9 then "\t"
  else if Nat.eqb n 10 then "\n"
  else if Nat.eqb n 13 then "\r"
  else if Nat.ltb n 32 || (Nat.leb 127 n && Nat.leb n 160) || Nat.eqb n 173
       then String "\"%char (String "x"%char
              (String (hex_digit (n / 16)) (String (hex_digit (n mod 16)) "")))
  else String c "".

Fixpoint repr_chars (q : ascii) (s : string) : string :=
  match s with
  | EmptyString => ""
  | String c rest => repr_char q c ++ repr_chars q rest
  end.

(** [repr(s)] for a Python [str]. *)
Definition repr_str (s : string) : string :=
  let q := repr_quote s in
  String q (repr_chars q s ++ String q "").

(** ** JSON values, as [response.json()] returns them *)

(** A float is carried by the text Python prints for it; the client never
    computes with one. *)
Inductive JSON : Type :=
| JNull
| JBool (b : bool)
| JInt (z : Z)
| JFloat (text : string)
| JStr (s : string)
| JList (items : list JSON)
| JDict (entries : list (string * JSON)).

(** [repr(v)] of the Python object a JSON value decodes to. *)
Fixpoint py_repr (v : JSON) : string :=
  match v with
  | JNull => "None"
  | JBool true => "True"
  | JBool false => "False"
  | JInt z => str_int z
  | JFloat text => text
  | JStr s => repr_str s
  | JList items => "[" ++ join ", " (map py_repr items) ++ "]"
  | JDict entries =>
      "{" ++ join ", "
               (map (fun e => repr_str (fst e) ++ ": " ++ py_repr (snd e)) entries)
          ++ "}"
  end.

(** [str(v)], which is what an f-string field [{v}] inserts: a string is
    inserted as it is, everything else through its [repr]. *)
Definition py_str (v : JSON) : string :=
  match v with
  | JStr s => s
  | _ => py_repr v
  end.

(** Python truthiness of [Optional[Dict[str, str]]]: [None] and the empty
    dictionary are both false. *)
Definition truthy_env (env_vars : option (list (string * string))) : bool :=
  match env_vars with
  | None => false
  | Some [] => false
  | Some (_ :: _) => true
  end.

(** A [Dict[str, str]] as the JSON object it serialises to. *)
Definition json_of_env (env : list (string * string)) : JSON :=
  JDict (map (fun e => (fst e, JStr (snd e))) env).

(** An [Optional[Dict[str, str]]] as JSON. *)
Definition json_of_optional_env (env_vars : option (list (string * string)))
    : JSON :=
  match env_vars with
  | None => JNull
  | Some env => json_of_env env
  end.

(** [d[k] = v] on a dictionary: an entry with that key is overwritten where
    it stands, a new key goes to the end. *)
Fixpoint dict_set (k : string) (v : JSON) (entries : list (string * JSON))
    : list (string * JSON) :=
  match entries with
  | [] => [(k, v)]
  | (k', v') :: rest =>
      if String.eqb k k' then (k, v) :: rest
      else (k', v') :: dict_set k v rest
  end.

Fixpoint dict_lookup (k : string) (entries : list (string * JSON)) : option JSON :=
  match entries with
  | [] => None
  | (k', v) :: rest => if String.eqb k k' then Some v else dict_lookup k rest
  end.

(** ** Exceptions *)

Inductive Exn : Type :=
| APIRequestError (msg : string)    (* the module's own exception class *)
| PyException (msg : string)        (* a bare [Exception(msg)] *)
| HTTPError (msg : string)          (* requests.exceptions.HTTPError *)
| ConnectionError (msg : string)    (* requests.exceptions.ConnectionError *)
| Timeout (msg : string)            (* requests.exceptions.Timeout *)
| MissingSchema (msg : string)      (* requests.exceptions.MissingSchema *)
| InvalidURL (msg : string)         (* requests.exceptions.InvalidURL *)
| JSONDecodeError (msg : string)    (* requests.exceptions.JSONDecodeError *)
| KeyError (msg : string)
| TypeError (msg : string)
| AttributeError (msg : string)
| ValueError (msg : string)
| ValidationError (msg : string)    (* pydantic *)
| OSError (msg : string).           (* [open] failing *)

(** [isinstance(e, RequestException)].  In requests 2.27 and later the
    decoding error raised by [response.json()] derives from it too. *)
Definition is_RequestException (e : Exn) : bool :=
  match e with
  | HTTPError _ | ConnectionError _ | Timeout _ | JSONDecodeError _
  | MissingSchema _ | InvalidURL _ => true
  | _ => false
  end.

(** The exceptions [requests] raises while it prepares the URL of a request,
    which it does before it builds the body. *)
Definition raised_before_body (e : Exn) : bool :=
  match e with
  | MissingSchema _ | InvalidURL _ => true
  | _ => false
  end.


(** [str(e)]. *)
Definition exn_message (e : Exn) : string :=
  match e with
  | APIRequestError m | PyException m | HTTPError m | ConnectionError m
  | Timeout m | MissingSchema m | InvalidURL m
  | JSONDecodeError m | TypeError m | AttributeError m
  | ValueError m | ValidationError m | OSError m => m
  | KeyError m => repr_str m
  end.

(** ** HTTP requests and responses *)

Inductive Method : Type := GET | POST | PUT | DELETE.

(** What one call into [requests] is given. *)
Record Request : Type := mkRequest {
  method : Method;
  url : string;
  json : option JSON;                   (* the [json=] keyword *)
  headers : list (string * string);     (* the [headers=] keyword *)
  files : list (string * string);       (* the [files=] keyword: field, content *)
  timeout : Z                           (* seconds *)
}.

(** The body of a response as [response.json()] sees it: either it decodes,
    or decoding fails with the decoder's message. *)
Inductive Body : Type :=
| JsonBody (v : JSON)
| NotJson (decode_error : string).

Record Response : Type := mkResponse {
  status_code : Z;
  reason : string;
  resp_url : string;
  body : Body
}.

(** ** The world and the monad *)

Inductive FileEvent : Type :=
| EvOpen (fd : nat) (path : string)
| EvRead (fd : nat) (data : string)
| EvClose (fd : nat).

Record World : Type := mkWorld {
  backend : Request -> Exn + Response;  (* what a call into requests comes
                                           back with: an exception of the
                                           library, or a response *)
  disk : string -> option string;       (* path to file content *)
  sent : list Request;                  (* calls made into requests so far,
                                           oldest first *)
  next_fd : nat;
  open_fds : list nat;                  (* handles currently open *)
  fs_log : list FileEvent               (* file events so far, oldest first *)
}.

(** A computation returns or raises, and leaves a world behind. *)
Definition M (A : Type) : Type := World -> (Exn + A) * World.

Definition ret {A} (a : A) : M A := fun w => (inr a, w).

Definition raise {A} (e : Exn) : M A := fun w => (inl e, w).

Definition bind {A B} (c : M A) (k : A -> M B) : M B :=
  fun w =>
    match c w with
    | (inr a, w') => k a w'
    | (inl e, w') => (inl e, w')
    end.

Notation "x <- c ;; k" := (bind c (fun x => k))
  (at level 61, c at next level, right associativity).
Notation "c ;;; k" := (bind c (fun _ => k))
  (at level 61, right associativity).

(** Lift a pure fallible step. *)
Definition lift {A} (r : Exn + A) : M A := fun w => (r, w).

(** [try: c  except RequestException as e: h e]. *)
Definition try_except_RequestException {A} (c : M A) (h : Exn -> M A) : M A :=
  fun w =>
    match c w with
    | (inl e, w') => if is_RequestException e then h e w' else (inl e, w')
    | ok => ok
    end.

(** [try: c  finally: f], the shape a [with] block unfolds to. *)
Definition finally {A} (c : M A) (f : M unit) : M A :=
  fun w =>
    match c w with
    | (r, w') =>
        match f w' with
        | (inr _, w'') => (r, w'')
        | (inl e, w'') => (inl e, w'')
        end
    end.

(** One blocking call into [requests]: the request is recorded, the backend
    answers or the transport fails. *)
Definition http_request (req : Request) : M Response :=
  fun w =>
    (backend w req,
     mkWorld (backend w) (disk w) (sent w ++ [req])
             (next_fd w) (open_fds w) (fs_log w)).

(** The call is refused while the library prepares its URL: nothing of the
    body has been built when the exception leaves the library. *)
Definition url_refused (w : World) (req : Request) : bool :=
  match backend w req with
  | inl e => raised_before_body e
  | inr _ => false
  end.

(** *** Files *)

Record Handle : Type := mkHandle { h_fd : nat; h_path : string }.

(** [path.open("rb")]. *)
Definition open_rb (path : string) : M Handle :=
  fun w =>
    match disk w path with
    | None =>
        (inl (OSError ("[Errno 2] No such file or directory: " ++ repr_str path)), w)
    | Some _ =>
        (inr (mkHandle (next_fd w) path),
         mkWorld (backend w) (disk w) (sent w)
                 (S (next_fd w)) (next_fd w :: open_fds w)
                 (fs_log w ++ [EvOpen (next_fd w) path]))
    end.

(** [f.read()]: the whole content of a handle that is still open. *)
Definition read_all (h : Handle) : M string :=
  fun w =>
    if existsb (Nat.eqb (h_fd h)) (open_fds w) then
      match disk w (h_path h) with
      | Some data =>
          (inr data,
           mkWorld (backend w) (disk w) (sent w) (next_fd w) (open_fds w)
                   (fs_log w ++ [EvRead (h_fd h) data]))
      | None => (inl (OSError "read failed"), w)
      end
    else (inl (ValueError "I/O operation on closed file."), w).

(** [f.close()]. *)
Definition close (h : Handle) : M unit :=
  fun w =>
    (inr tt,
     mkWorld (backend w) (disk w) (sent w) (next_fd w)
             (filter (fun fd => negb (Nat.eqb (h_fd h) fd)) (open_fds w))
             (fs_log w ++ [EvClose (h_fd h)])).

(** [with path.open("rb") as f: body f]. *)
Definition with_open {A} (path : string) (body : Handle -> M A) : M A :=
  h <- open_rb path ;;
  finally (body h) (close h).

(** *** Methods of a response and of decoded JSON *)

(** [response.json()]. *)
Definition response_json (r : Response) : Exn + JSON :=
  match body r with
  | JsonBody v => inr v
  | NotJson msg => inl (JSONDecodeError msg)
  end.

(** [response.raise_for_status()] of requests. *)
Definition raise_for_status (r : Response) : Exn + unit :=
  if (400 <=? status_code r)%Z && (status_code r <? 500)%Z then
    inl (HTTPError (str_int (status_code r) ++ " Client Error: " ++ reason r
                      ++ " for url: " ++ resp_url r))
  else if (500 <=? status_code r)%Z && (status_code r <? 600)%Z then
    inl (HTTPError (str_int (status_code r) ++ " Server Error: " ++ reason r
                      ++ " for url: " ++ resp_url r))
  else inr tt.

(** [type(v).__name__] of the decoded object. *)
Definition py_type_name (v : JSON) : string :=
  match v with
  | JNull => "NoneType"
  | JBool _ => "bool"
  | JInt _ => "int"
  | JFloat _ => "float"
  | JStr _ => "str"
  | JList _ => "list"
  | JDict _ => "dict"
  end.

(** [v[key]] with a string key. *)
Definition json_getitem (v : JSON) (key : string) : Exn + JSON :=
  match v with
  | JDict entries =>
      match dict_lookup key entries with
      | Some x => inr x
      | None => inl (KeyError key)
      end
  | JList _ => inl (TypeError "list indices must be integers or slices, not str")
  | JStr _ => inl (TypeError "string indices must be integers, not 'str'")
  | _ => inl (TypeError ("'" ++ py_type_name v ++ "' object is not subscriptable"))
  end.

(** [v.get(key, default)]. *)
Definition json_get (v : JSON) (key : string) (default : JSON) : Exn + JSON :=
  match v with
  | JDict entries =>
      match dict_lookup key entries with
      | Some x => inr x
      | None => inr default
      end
  | _ => inl (AttributeError
                ("'" ++ py_type_name v ++ "' object has no attribute 'get'"))
  end.

(** ** Records of [agenta.client.api_models] *)

(** Modelled from the spec: [Image] is declared in [api_models], which is not
    part of the sources at hand.  The spec gives it a [docker_id] (string) and
    a [tags] field (string); the client reads exactly these two attributes. *)
Record Image : Type := mkImage { docker_id : string; tags : string }.

(** Modelled from the spec: [Image.parse_obj] on decoded JSON.  An object with
    string-valued [docker_id] and [tags] gives the record holding these two
    values; anything else is rejected by validation. *)
Definition Image_parse_obj (v : JSON) : Exn + Image :=
  match v with
  | JDict entries =>
      match dict_lookup "docker_id" entries, dict_lookup "tags" entries with
      | Some (JStr d), Some (JStr t) => inr (mkImage d t)
      | _, _ => inl (ValidationError "validation error for Image")
      end
  | _ => inl (ValidationError ("Image expected dict not " ++ py_type_name v))
  end.

(** Modelled from the spec: [image.dict()]. *)
Definition Image_dict (i : Image) : JSON :=
  JDict [("docker_id", JStr (docker_id i)); ("tags", JStr (tags i))].

(** The line break inside the diagnostic of [send_docker_tar]. *)
Definition nl : string := String (ascii_of_nat 10) "".

(** ** Sample worlds

    Mock backends and canned responses, used to run the client on concrete
    inputs. *)

(** Modelled from the spec: [AppVariant] is declared in [api_models], outside
    the sources at hand; the spec names [variant_id] and [variant_name] among
    its fields.  This sample record keeps these two, and its constructor
    copies them from the keyword arguments. *)
Record SampleVariant : Type :=
  mkSampleVariant { variant_id : string; variant_name : string }.

Definition SampleVariant_new (kwargs : list (string * JSON))
    : Exn + SampleVariant :=
  match dict_lookup "variant_id" kwargs, dict_lookup "variant_name" kwargs with
  | Some (JStr i), Some (JStr n) => inr (mkSampleVariant i n)
  | _, _ => inl (ValidationError "validation error for AppVariant")
  end.

(** A backend that answers every request with the same response. *)
Definition mock_backend (r : Response) : Request -> Exn + Response :=
  fun _ => inr r.

(** A host that refuses the connection. *)
Definition refusing_backend : Request -> Exn + Response :=
  fun _ => inl (ConnectionError "Connection refused").


(** The objects the spec-modelled [AppVariant] is built from, and what it
    means for a record to agree with its object field for field. *)
Definition is_variant_object (o : list (string * JSON)) : Prop :=
  exists i n,
    dict_lookup "variant_id" o = Some (JStr i)
    /\ dict_lookup "variant_name" o = Some (JStr n).

Definition same_fields (o : list (string * JSON)) (a : SampleVariant) : Prop :=
  dict_lookup "variant_id" o = Some (JStr (variant_id a))
  /\ dict_lookup "variant_name" o = Some (JStr (variant_name a)).

(** One archive on disk. *)
Definition sample_disk (path : string) : option string :=
  if String.eqb path "build.tar" then Some "tar-bytes" else None.

(** A fresh process: nothing sent, no file open, descriptors from 3 on. *)
Definition world_of (b : Request -> Exn + Response) : World :=
  mkWorld b sample_disk [] 3 [] [].

Definition sample_image_json : JSON :=
  JDict [("docker_id", JStr "sha256:abc"); ("tags", JStr "demo:latest")].

Definition resp_200_app : Response :=
  mkResponse 200 "OK" "http://localhost/api/apps/"
    (JsonBody (JDict [("app_id", JStr "a1")])).

Definition resp_400_duplicate : Response :=
  mkResponse 400 "Bad Request" "http://localhost/api/apps/"
    (JsonBody (JDict [("detail", JStr "duplicate name")])).

Definition resp_404_html : Response :=
  mkResponse 404 "Not Found" "http://localhost/api/apps?app_name=demo/"
    (NotJson "Expecting value: line 1 column 1 (char 0)").

Definition resp_500_build : Response :=
  mkResponse 500 "Internal Server Error"
    "http://localhost/api/containers/build_image/?app_id=a1&&variant_name=v1"
    (JsonBody (JDict [("detail", JStr "boom")])).

Definition resp_503_build : Response :=
  mkResponse 503 "Service Unavailable"
    "http://localhost/api/containers/build_image/?app_id=a1&&variant_name=v1"
    (JsonBody (JDict [("detail", JStr "busy")])).

Definition resp_300_image : Response :=
  mkResponse 300 "Multiple Choices"
    "http://localhost/api/containers/build_image/?app_id=a1&&variant_name=v1"
    (JsonBody sample_image_json).

Definition resp_200_image : Response :=
  mkResponse 200 "OK"
    "http://localhost/api/containers/build_image/?app_id=a1&&variant_name=v1"
    (JsonBody sample_image_json).

Definition sample_variant_objects : list (list (string * JSON)) :=
  [[("variant_id", JStr "1"); ("variant_name", JStr "v1")];
   [("variant_id", JStr "2"); ("variant_name", JStr "v2")]].

Definition resp_200_variants : Response :=
  mkResponse 200 "OK" "http://localhost/api/apps/a1/variants/"
    (JsonBody (JList (map JDict sample_variant_objects))).

Definition resp_404_variant : Response :=
  mkResponse 404 "Not Found" "http://localhost/variants/1/"
    (JsonBody (JDict [("detail", JStr "no such variant")])).

Definition resp_500_html : Response :=
  mkResponse 500 "Internal Server Error"
    "http://localhost/api/containers/build_image/?app_id=a1&&variant_name=v1"
    (NotJson "Expecting value: line 1 column 1 (char 0)").

Definition resp_200_uri : Response :=
  mkResponse 200 "OK" "http://localhost/variants/1/"
    (JsonBody (JDict [("uri", JStr "http://localhost:8001")])).

Definition resp_200_no_body : Response :=
  mkResponse 200 "OK" "http://localhost/api/variants/1"
    (NotJson "Expecting value: line 1 column 1 (char 0)").

(** An array whose second element is not an object. *)
Definition resp_200_bad_variants : Response :=
  mkResponse 200 "OK" "http://localhost/api/apps/a1/variants/"
    (JsonBody (JList [JDict [("variant_id", JStr "1");
                             ("variant_name", JStr "v1")];
                      JInt 7;
                      JDict [("variant_id", JStr "2");
                             ("variant_name", JStr "v2")]])).

(** A process that already holds two open files. *)
Definition busy_world (b : Request -> Exn + Response) : World :=
  mkWorld b sample_disk [] 5 [4; 3] [EvOpen 3 "a.log"; EvOpen 4 "b.log"].

Definition resp_502_list : Response :=
  mkResponse 502 "Bad Gateway" "http://localhost/variants/1/"
    (JsonBody (JList [JStr "bad gateway"])).

(** ** The client *)

Section Client.

(** [BACKEND_URL_SUFFIX = os.environ["BACKEND_URL_SUFFIX"]], read once when
    the module is imported. *)
Variable BACKEND_URL_SUFFIX : string.

(** [AppVariant] is declared in [api_models] as well; its fields are not
    known here, so the record type and its constructor, called with
    the entries of an object as keyword arguments, are taken as given. *)
Variable AppVariant : Type.
Variable AppVariant_new : list (string * JSON) -> Exn + AppVariant.

(** The failure branch the operations share: [error_message = response.json()]
    followed by
    [raise APIRequestError(f"{what} failed with status code {status} and error message: {error_message}{stop}")]. *)
Definition status_error {A} (what stop : string) (response : Response) : M A :=
  error_message <- lift (response_json response) ;;
  raise (APIRequestError
           (what ++ " failed with status code "
                 ++ str_int (status_code response) ++ " and error message: "
                 ++ py_str error_message ++ stop)).

Definition get_app_by_name_request (app_name host : string) : Request :=
  mkRequest GET
    (host ++ "/" ++ BACKEND_URL_SUFFIX ++ "/apps?app_name=" ++ app_name ++ "/")
    None [] [] 600.

Definition get_app_by_name (app_name host : string) : M JSON :=
  response <- http_request (get_app_by_name_request app_name host) ;;
  if negb (status_code response =? 200)%Z then
    status_error "Request to get app" "." response
  else
    j <- lift (response_json response) ;;
    lift (json_getitem j "app_id").

Definition create_new_app_request (app_name host : string) : Request :=
  mkRequest POST
    (host ++ "/" ++ BACKEND_URL_SUFFIX ++ "/apps/")
    (Some (JDict [("app_name", JStr app_name)])) [] [] 600.

Definition create_new_app (app_name host : string) : M JSON :=
  response <- http_request (create_new_app_request app_name host) ;;
  if negb (status_code response =? 200)%Z then
    status_error "Request to create new app" "." response
  else
    j <- lift (response_json response) ;;
    lift (json_getitem j "app_id").

Definition add_variant_payload (variant_name : string) (image : Image) : JSON :=
  JDict [("variant_name", JStr variant_name);
         ("docker_id", JStr (docker_id image));
         ("tags", JStr (tags image));
         ("base_name", JNull);
         ("config_name", JNull)].

Definition add_variant_to_server_request
    (app_id variant_name : string) (image : Image) (host : string) : Request :=
  mkRequest POST
    (host ++ "/" ++ BACKEND_URL_SUFFIX ++ "/apps/" ++ app_id
          ++ "/variant/from-image/")
    (Some (add_variant_payload variant_name image)) [] [] 600.

Definition add_variant_to_server
    (app_id variant_name : string) (image : Image) (host : string) : M JSON :=
  response <- http_request
                (add_variant_to_server_request app_id variant_name image host) ;;
  if negb (status_code response =? 200)%Z then
    status_error "Request to app_variant endpoint" "." response
  else
    lift (response_json response).

(** [payload = {"action": "START"}], then
    [if env_vars: payload["env_vars"] = {"env_vars": env_vars}]. *)
Definition start_variant_payload
    (env_vars : option (list (string * string))) : JSON :=
  let payload := [("action", JStr "START")] in
  JDict (if truthy_env env_vars
         then dict_set "env_vars"
                (JDict [("env_vars", json_of_optional_env env_vars)]) payload
         else payload).

Definition start_variant_request
    (variant_id host : string) (env_vars : option (list (string * string)))
    : Request :=
  mkRequest PUT
    (host ++ "/variants/" ++ variant_id ++ "/")
    (Some (start_variant_payload env_vars)) [] [] 600.

Definition start_variant
    (variant_id host : string) (env_vars : option (list (string * string)))
    : M JSON :=
  try_except_RequestException
    (response <- http_request (start_variant_request variant_id host env_vars) ;;
     if negb (status_code response =? 200)%Z then
       j <- lift (response_json response) ;;
       error_message <- lift (json_get j "detail" (JStr "Unknown error")) ;;
       raise (APIRequestError
                ("Request to start variant endpoint failed with status code "
                   ++ str_int (status_code response) ++ " and error message: "
                   ++ py_str error_message ++ "."))
     else
       j <- lift (response_json response) ;;
       lift (json_get j "uri" (JStr "")))
    (fun e =>
       raise (APIRequestError
                ("An error occurred while making the request: "
                   ++ exn_message e))).

Definition list_variants_request (app_id host : string) : Request :=
  mkRequest GET
    (host ++ "/" ++ BACKEND_URL_SUFFIX ++ "/apps/" ++ app_id ++ "/variants/")
    None [] [] 600.

(** The constructor call on one element, whose keyword arguments are the
    unpacked [variant]: unpacking needs a mapping, and the error names the
    callable the way CPython 3.9 and later do. *)
Definition AppVariant_of (variant : JSON) : Exn + AppVariant :=
  match variant with
  | JDict entries => AppVariant_new entries
  | _ => inl (TypeError
                ("agenta.client.api_models.AppVariant() argument after ** must be a mapping, not "
                   ++ py_type_name variant))
  end.

(** The comprehension's loop: elements are converted left to right and the
    first failure ends it. *)
Fixpoint build_variants (items : list JSON) : Exn + list AppVariant :=
  match items with
  | [] => inr []
  | variant :: rest =>
      match AppVariant_of variant with
      | inl e => inl e
      | inr a =>
          match build_variants rest with
          | inl e => inl e
          | inr l => inr (a :: l)
          end
      end
  end.

Fixpoint chars_of (s : string) : list JSON :=
  match s with
  | EmptyString => []
  | String c rest => JStr (String c "") :: chars_of rest
  end.

(** The comprehension over [app_variants]: a list is walked
    through its items, an object through its keys, a string through its
    characters; anything else cannot be iterated. *)
Definition variants_of_json (app_variants : JSON) : Exn + list AppVariant :=
  match app_variants with
  | JList items => build_variants items
  | JDict entries => build_variants (map (fun e => JStr (fst e)) entries)
  | JStr s => build_variants (chars_of s)
  | _ => inl (TypeError
                ("'" ++ py_type_name app_variants ++ "' object is not iterable"))
  end.

Definition list_variants (app_id host : string) : M (list AppVariant) :=
  response <- http_request (list_variants_request app_id host) ;;
  if negb (status_code response =? 200)%Z then
    status_error "Request to list_variants endpoint" "." response
  else
    app_variants <- lift (response_json response) ;;
    lift (variants_of_json app_variants).

Definition remove_variant_request (variant_id host : string) : Request :=
  mkRequest DELETE
    (host ++ "/" ++ BACKEND_URL_SUFFIX ++ "/variants/" ++ variant_id)
    None [("Content-Type", "application/json")] [] 600.

Definition remove_variant (variant_id host : string) : M unit :=
  response <- http_request (remove_variant_request variant_id host) ;;
  if negb (status_code response =? 200)%Z then
    status_error "Request to remove_variant endpoint" "" response
  else ret tt.

Definition update_variant_image_request
    (variant_id : string) (image : Image) (host : string) : Request :=
  mkRequest PUT
    (host ++ "/" ++ BACKEND_URL_SUFFIX ++ "/variants/" ++ variant_id ++ "/image/")
    (Some (JDict [("image", Image_dict image)])) [] [] 600.

Definition update_variant_image
    (variant_id : string) (image : Image) (host : string) : M unit :=
  response <- http_request (update_variant_image_request variant_id image host) ;;
  if negb (status_code response =? 200)%Z then
    status_error "Request to update app_variant" "." response
  else ret tt.

Definition send_docker_tar_url (app_id variant_name host : string) : string :=
  host ++ "/" ++ BACKEND_URL_SUFFIX ++ "/containers/build_image/?app_id="
       ++ app_id ++ "&&variant_name=" ++ variant_name.

Definition send_docker_tar_request
    (app_id variant_name host data : string) : Request :=
  mkRequest POST (send_docker_tar_url app_id variant_name host)
    None [] [("tar_file", data)] 1200.

(** The diagnostic built for status 500. *)
Definition build_failure_message (response_error : JSON) : string :=
  "Serving the variant failed." ++ nl
    ++ "Log: " ++ py_str response_error ++ nl
    ++ "Here's how you may be able to solve the issue:" ++ nl
    ++ "- First, make sure that the requirements.txt file has all the dependencies that you need." ++ nl
    ++ "- Second, check the Docker logs for the backend image to see the error when running the Docker container.".

(** [requests.post(url, files={"tar_file": tar_file}, timeout=1200)].  The
    library prepares the URL first, and a URL it refuses ([MissingSchema],
    [InvalidURL]) ends the call before the handle is touched.  Otherwise it
    reads the handle to its end while it builds the multipart body, and
    sends; the transport can fail only after that.  The request recorded is
    the call as it was made: the field and the content of the file behind
    the handle. *)
Definition post_tar (app_id variant_name host : string) (tar_file : Handle)
    : M Response :=
  fun w =>
    match disk w (h_path tar_file) with
    | None => (inl (OSError "read failed"), w)
    | Some content =>
        if url_refused w
             (send_docker_tar_request app_id variant_name host content)
        then
          http_request
            (send_docker_tar_request app_id variant_name host content) w
        else
          (data <- read_all tar_file ;;
           http_request (send_docker_tar_request app_id variant_name host data))
            w
    end.

Definition send_docker_tar (app_id variant_name tar_path host : string) : M Image :=
  response <- with_open tar_path (post_tar app_id variant_name host) ;;
  if (status_code response =? 500)%Z then
    response_error <- lift (response_json response) ;;
    raise (PyException (build_failure_message response_error))
  else
    lift (raise_for_status response) ;;;
    j <- lift (response_json response) ;;
    lift (Image_parse_obj j).

(** ** The eight operations as one interface *)

Inductive Call : Type :=
| CallGetAppByName (app_name host : string)
| CallCreateNewApp (app_name host : string)
| CallAddVariantToServer (app_id variant_name : string) (image : Image)
                         (host : string)
| CallStartVariant (variant_id host : string)
                   (env_vars : option (list (string * string)))
| CallListVariants (app_id host : string)
| CallRemoveVariant (variant_id host : string)
| CallUpdateVariantImage (variant_id : string) (image : Image) (host : string)
| CallSendDockerTar (app_id variant_name tar_path host : string).

Inductive Ret : Type :=
| RJson (v : JSON)
| RVariants (l : list AppVariant)
| RImage (i : Image)
| RNone.

Definition run (c : Call) : M Ret :=
  match c with
  | CallGetAppByName n h => v <- get_app_by_name n h ;; ret (RJson v)
  | CallCreateNewApp n h => v <- create_new_app n h ;; ret (RJson v)
  | CallAddVariantToServer a n i h =>
      v <- add_variant_to_server a n i h ;; ret (RJson v)
  | CallStartVariant v h e => u <- start_variant v h e ;; ret (RJson u)
  | CallListVariants a h => l <- list_variants a h ;; ret (RVariants l)
  | CallRemoveVariant v h => remove_variant v h ;;; ret RNone
  | CallUpdateVariantImage v i h => update_variant_image v i h ;;; ret RNone
  | CallSendDockerTar a n p h => i <- send_docker_tar a n p h ;; ret (RImage i)
  end.

(** The request a call issues in a given world; the upload issues none when
    the archive cannot be opened. *)
Definition call_request (c : Call) (w : World) : option Request :=
  match c with
  | CallGetAppByName n h => Some (get_app_by_name_request n h)
  | CallCreateNewApp n h => Some (create_new_app_request n h)
  | CallAddVariantToServer a n i h =>
      Some (add_variant_to_server_request a n i h)
  | CallStartVariant v h e => Some (start_variant_request v h e)
  | CallListVariants a h => Some (list_variants_request a h)
  | CallRemoveVariant v h => Some (remove_variant_request v h)
  | CallUpdateVariantImage v i h => Some (update_variant_image_request v i h)
  | CallSendDockerTar a n p h =>
      option_map (send_docker_tar_request a n h) (disk w p)
  end.

Definition is_send_docker_tar (c : Call) : bool :=
  match c with CallSendDockerTar _ _ _ _ => true | _ => false end.

Definition is_start_variant (c : Call) : bool :=
  match c with CallStartVariant _ _ _ => true | _ => false end.

(** The outcome of a call: what it raises or returns. *)
Definition outcome (c : Call) (w : World) : Exn + Ret := fst (run c w).

(** A 2xx status. *)
Definition is_success (status : Z) : bool :=
  (200 <=? status)%Z && (status <? 300)%Z.

(** What the spec promises of a failed call: a [APIRequestError] whose message
    has the status code and the text of the server's payload in it. *)
Definition raises_status_error (c : Call) (w : World) (r : Response) (v : JSON)
    : Prop :=
  exists msg,
    outcome c w = inl (APIRequestError msg)
    /\ contains (str_int (status_code r)) msg
    /\ contains (py_str v) msg.

(** The part of the payload [start_variant] puts in its message: the
    [detail] entry of the object, or a fixed text when there is none. *)
Definition detail_of (entries : list (string * JSON)) : JSON :=
  match dict_lookup "detail" entries with
  | Some d => d
  | None => JStr "Unknown error"
  end.

(** The payload text a failed call reports. *)
Definition reported_payload (c : Call) (v : JSON) : JSON :=
  if is_start_variant c then
    match v with
    | JDict entries => detail_of entries
    | _ => v
    end
  else v.

Definition is_object (v : JSON) : bool :=
  match v with JDict _ => true | _ => false end.

(** ** Basic facts *)

Lemma append_assoc (a b c : string) : (a ++ b) ++ c = a ++ (b ++ c).
Proof.
  induction a as [|x a IH]; simpl; [reflexivity | now rewrite IH].
Qed.

Lemma append_nil_r (a : string) : a ++ "" = a.
Proof.
  induction a as [|x a IH]; simpl; [reflexivity | now rewrite IH].
Qed.

Lemma contains_mid (pre sub post : string) : contains sub (pre ++ sub ++ post).
Proof. now exists pre, post. Qed.

Lemma contains_app_r (sub a b : string) : contains sub b -> contains sub (a ++ b).
Proof.
  intros (pre & post & ->). exists (a ++ pre), post.
  now rewrite append_assoc.
Qed.

Lemma contains_app_l (sub a b : string) : contains sub a -> contains sub (a ++ b).
Proof.
  intros (pre & post & ->). exists pre, (post ++ b).
  now rewrite !append_assoc.
Qed.

Lemma contains_refl (s : string) : contains s s.
Proof. exists "", "". simpl. now rewrite append_nil_r. Qed.

Lemma prefix_append (sub post : string) : String.prefix sub (sub ++ post) = true.
Proof.
  induction sub as [| c sub IH]; simpl.
  - now destruct post.
  - destruct (ascii_dec c c) as [_ | Hne]; [exact IH | now elim Hne].
Qed.

Lemma occurs_unfold (sub s : string) :
  occurs sub s
    = String.prefix sub s
      || match s with
         | EmptyString => false
         | String _ rest => occurs sub rest
         end.
Proof. now destruct s. Qed.

(** The test finds every occurrence, so a failed test rules them out. *)
Lemma contains_occurs (sub s : string) : contains sub s -> occurs sub s = true.
Proof.
  intros (pre & post & ->).
  induction pre as [| c pre IH].
  - simpl. now rewrite occurs_unfold, prefix_append.
  - rewrite occurs_unfold. simpl. rewrite IH. apply orb_true_r.
Qed.

(** The message of the shared failure branch holds both the status code and
    the payload text. *)
Lemma status_message_contains (what stop : string) (status : Z) (v : JSON) :
  let msg := what ++ " failed with status code " ++ str_int status
                  ++ " and error message: " ++ py_str v ++ stop in
  contains (str_int status) msg /\ contains (py_str v) msg.
Proof.
  cbv zeta. split.
  - apply contains_app_r, contains_mid.
  - do 4 apply contains_app_r. apply contains_app_l, contains_refl.
Qed.

Lemma http_request_run (req : Request) (w : World) :
  http_request req w =
    (backend w req,
     mkWorld (backend w) (disk w) (sent w ++ [req])
             (next_fd w) (open_fds w) (fs_log w)).
Proof. reflexivity. Qed.

Lemma status_error_run {A} (what stop : string) (r : Response) (v : JSON)
    (w : World) :
  body r = JsonBody v ->
  @status_error A what stop r w =
    (inl (APIRequestError
            (what ++ " failed with status code " ++ str_int (status_code r)
                  ++ " and error message: " ++ py_str v ++ stop)), w).
Proof.
  intros Hb. unfold status_error, bind, lift, raise, response_json.
  now rewrite Hb.
Qed.

Lemma status_error_not_json {A} (what stop : string) (r : Response)
    (m : string) (w : World) :
  body r = NotJson m ->
  @status_error A what stop r w = (inl (JSONDecodeError m), w).
Proof.
  intros Hb. unfold status_error, bind, lift, raise, response_json.
  now rewrite Hb.
Qed.

Lemma neq_200 (status : Z) : status <> 200%Z -> negb (status =? 200)%Z = true.
Proof. intros H. now apply negb_true_iff, Z.eqb_neq. Qed.

(** ** Failure on a status other than 200 *)

(** Unfold one operation up to the point where the response is in hand. *)
Ltac step_request Hreq Hback :=
  injection Hreq as <-;
  unfold outcome, run, get_app_by_name, create_new_app, add_variant_to_server,
    list_variants, remove_variant, update_variant_image, bind;
  rewrite http_request_run, Hback.

(** The exact exception of the failure branch, for the seven operations that
    share it. *)
Lemma failed_status_outcome
    (c : Call) (w : World) (req : Request) (r : Response) (v : JSON) :
  is_send_docker_tar c = false ->
  call_request c w = Some req ->
  backend w req = inr r ->
  status_code r <> 200%Z ->
  body r = JsonBody v ->
  (is_start_variant c = true -> is_object v = true) ->
  exists what stop,
    outcome c w =
      inl (APIRequestError
             (what ++ " failed with status code " ++ str_int (status_code r)
                   ++ " and error message: " ++ py_str (reported_payload c v)
                   ++ stop)).
Proof.
  intros Hc Hreq Hback Hst Hbody Hobj.
  destruct c; simpl in Hc; try discriminate; simpl in Hreq;
    unfold reported_payload; simpl is_start_variant; cbv iota.
  1-3, 5-7:
    step_request Hreq Hback;
    rewrite (neq_200 _ Hst), (status_error_run _ _ _ _ _ Hbody);
    do 2 eexists; reflexivity.
  (* start_variant *)
  specialize (Hobj eq_refl). destruct v; try discriminate.
  injection Hreq as <-.
  unfold outcome, run, start_variant, try_except_RequestException, bind.
  rewrite http_request_run, Hback, (neq_200 _ Hst).
  unfold lift, raise, response_json. rewrite Hbody. simpl.
  unfold detail_of.
  exists "Request to start variant endpoint", ".".
  destruct (dict_lookup "detail" entries) as [d|]; reflexivity.
Qed.

(** C1, as the code has it: every operation other than the upload, answered
    with a status other than 200 (so with any status outside 2xx) and a body
    that decodes as JSON (as a JSON object, for [start_variant]), raises
    [APIRequestError] with a message that has the decimal status code in it
    and the text of the payload; for [start_variant] that text is the one of
    the payload's [detail] entry, or [Unknown error] when it has none. *)
Theorem failed_status_raises_api_error
    (c : Call) (w : World) (req : Request) (r : Response) (v : JSON) :
  is_send_docker_tar c = false ->
  call_request c w = Some req ->
  backend w req = inr r ->
  status_code r <> 200%Z ->
  body r = JsonBody v ->
  (is_start_variant c = true -> is_object v = true) ->
  raises_status_error c w r (reported_payload c v).
Proof.
  intros Hc Hreq Hback Hst Hbody Hobj.
  destruct (failed_status_outcome c w req r v Hc Hreq Hback Hst Hbody Hobj)
    as (what & stop & Hout).
  exists (what ++ " failed with status code " ++ str_int (status_code r)
               ++ " and error message: " ++ py_str (reported_payload c v)
               ++ stop).
  split; [exact Hout | apply status_message_contains].
Qed.

(** C6, as the code has it: for every operation other than the upload, the
    error raised on a status other than 200 is an [APIRequestError] that
    carries the server's payload decoded as JSON when the body decodes; for
    [start_variant] the body then has to be a JSON object, and what is
    carried is its [detail] entry, or the text [Unknown error] when the
    object has none.  For [start_variant], a body that does not decode still
    gives an [APIRequestError], which carries the decoder's message. *)
Theorem failed_status_carries_payload
    (c : Call) (w : World) (req : Request) (r : Response) :
  is_send_docker_tar c = false ->
  call_request c w = Some req ->
  backend w req = inr r ->
  status_code r <> 200%Z ->
  (forall v,
      body r = JsonBody v ->
      (is_start_variant c = true -> is_object v = true) ->
      exists msg,
        outcome c w = inl (APIRequestError msg)
        /\ contains (py_str (reported_payload c v)) msg)
  /\ (forall entries,
         body r = JsonBody (JDict entries) ->
         is_start_variant c = true ->
         reported_payload c (JDict entries)
           = match dict_lookup "detail" entries with
             | Some detail => detail
             | None => JStr "Unknown error"
             end)
  /\ (forall m,
         body r = NotJson m ->
         is_start_variant c = true ->
         exists msg,
           outcome c w = inl (APIRequestError msg) /\ contains m msg).
Proof.
  intros Hc Hreq Hback Hst. split; [| split].
  - intros v Hbody Hobj.
    destruct (failed_status_outcome c w req r v Hc Hreq Hback Hst Hbody Hobj)
      as (what & stop & Hout).
    eexists. split; [exact Hout | apply status_message_contains].
  - intros entries _ Hsv. unfold reported_payload. now rewrite Hsv.
  - intros m Hbody Hsv.
    destruct c; simpl in Hsv; try discriminate. simpl in Hreq.
    injection Hreq as <-.
    unfold outcome, run, start_variant, try_except_RequestException, bind.
    rewrite http_request_run, Hback, (neq_200 _ Hst).
    unfold lift, raise, response_json. rewrite Hbody. simpl.
    eexists. split; [reflexivity |].
    exact (contains_app_r m "An error occurred while making the request: " m
             (contains_refl m)).
Qed.

(** ** The upload *)

(** The world after the [with] block of [send_docker_tar] has run on an
    archive that exists. *)
Definition after_upload (w : World) (tar_path data : string) (req : Request)
    : World :=
  mkWorld (backend w) (disk w) (sent w ++ [req]) (S (next_fd w))
          (filter (fun fd => negb (Nat.eqb (next_fd w) fd))
                  (next_fd w :: open_fds w))
          (((fs_log w ++ [EvOpen (next_fd w) tar_path])
              ++ [EvRead (next_fd w) data]) ++ [EvClose (next_fd w)]).

(** The world after the [with] block when the library refused the URL: the
    archive was opened and closed, and never read. *)
Definition after_upload_unread (w : World) (tar_path : string) (req : Request)
    : World :=
  mkWorld (backend w) (disk w) (sent w ++ [req]) (S (next_fd w))
          (filter (fun fd => negb (Nat.eqb (next_fd w) fd))
                  (next_fd w :: open_fds w))
          ((fs_log w ++ [EvOpen (next_fd w) tar_path])
             ++ [EvClose (next_fd w)]).

Definition upload_world (w : World) (tar_path data : string) (req : Request)
    : World :=
  if url_refused w req then after_upload_unread w tar_path req
  else after_upload w tar_path data req.

(** The [with] block: whatever the call comes back with, the block ends with
    that outcome, and the handle goes through open, read and close, or
    through open and close alone when the URL was refused. *)
Lemma with_open_post_tar_run
    (app_id variant_name tar_path host data : string) (w : World) :
  disk w tar_path = Some data ->
  with_open tar_path (post_tar app_id variant_name host) w =
    (backend w (send_docker_tar_request app_id variant_name host data),
     upload_world w tar_path data
       (send_docker_tar_request app_id variant_name host data)).
Proof.
  intros Hdisk.
  unfold with_open, bind, open_rb. rewrite Hdisk.
  unfold finally, post_tar, upload_world, url_refused. simpl.
  rewrite Hdisk.
  destruct (backend w _) as [e | r] eqn:Hback;
    [destruct (raised_before_body e) |];
    unfold bind, read_all, http_request, after_upload, after_upload_unread;
    simpl;
    repeat progress (rewrite ?Nat.eqb_refl, ?Hdisk, ?Hback; simpl);
    reflexivity.
Qed.

Lemma upload_world_sent (w : World) (tar_path data : string) (req : Request) :
  sent (upload_world w tar_path data req) = (sent w ++ [req])%list.
Proof. unfold upload_world. now destruct (url_refused w req). Qed.

Lemma upload_world_handles
    (w : World) (tar_path data : string) (req : Request) :
  open_fds (upload_world w tar_path data req)
    = filter (fun fd => negb (Nat.eqb (next_fd w) fd))
             (next_fd w :: open_fds w)
  /\ next_fd (upload_world w tar_path data req) = S (next_fd w).
Proof. unfold upload_world. now destruct (url_refused w req). Qed.



Lemma build_failure_message_contains (v : JSON) :
  contains "Serving the variant failed" (build_failure_message v)
  /\ contains "Docker logs" (build_failure_message v).
Proof.
  unfold build_failure_message. split.
  - exists "". eexists. simpl. reflexivity.
  - do 9 apply contains_app_r.
    now exists "- Second, check the ",
      " for the backend image to see the error when running the Docker container.".
Qed.

(** C2, as the code has it: in [send_docker_tar], a response with status 500
    whose body decodes as JSON raises an exception whose message has
    [Serving the variant failed] and [Docker logs] in it; any other status
    from 400 to 599 raises the error of the HTTP layer's own
    [raise_for_status] instead. *)
Theorem send_docker_tar_error_kinds
    (app_id variant_name tar_path host data : string) (w : World)
    (r : Response) :
  disk w tar_path = Some data ->
  backend w (send_docker_tar_request app_id variant_name host data) = inr r ->
  (status_code r = 500%Z ->
   forall v, body r = JsonBody v ->
     exists msg,
       fst (send_docker_tar app_id variant_name tar_path host w)
         = inl (PyException msg)
       /\ contains "Serving the variant failed" msg
       /\ contains "Docker logs" msg)
  /\ (status_code r <> 500%Z ->
      (400 <= status_code r < 600)%Z ->
      exists msg,
        fst (send_docker_tar app_id variant_name tar_path host w)
          = inl (HTTPError msg)
        /\ raise_for_status r = inl (HTTPError msg)).
Proof.
  intros Hdisk Hback.
  unfold send_docker_tar, bind.
  rewrite (with_open_post_tar_run _ _ _ _ _ _ Hdisk), Hback.
  split.
  - intros H500 v Hbody. rewrite H500. simpl.
    unfold lift, raise, response_json. rewrite Hbody. simpl.
    eexists; split; [reflexivity | apply build_failure_message_contains].
  - intros Hne Hrange.
    apply Z.eqb_neq in Hne. rewrite Hne.
    unfold lift, raise_for_status.
    destruct ((400 <=? status_code r)%Z && (status_code r <? 500)%Z) eqn:H4.
    + eexists; split; reflexivity.
    + assert (H5 : (500 <=? status_code r)%Z && (status_code r <? 600)%Z = true).
      { apply andb_false_iff in H4. apply andb_true_iff.
        rewrite Z.leb_le, Z.ltb_lt. rewrite Z.leb_gt, Z.ltb_ge in H4. lia. }
      rewrite H5. eexists; split; reflexivity.
Qed.

(** C8: in [send_docker_tar], a response with status 200 whose body is a JSON
    object with string entries [docker_id] and [tags] makes the call return
    an [Image] holding these two values. *)
Theorem send_docker_tar_returns_image
    (app_id variant_name tar_path host data : string) (w : World)
    (r : Response) (entries : list (string * JSON)) (d t : string) :
  disk w tar_path = Some data ->
  backend w (send_docker_tar_request app_id variant_name host data) = inr r ->
  status_code r = 200%Z ->
  body r = JsonBody (JDict entries) ->
  dict_lookup "docker_id" entries = Some (JStr d) ->
  dict_lookup "tags" entries = Some (JStr t) ->
  exists image,
    fst (send_docker_tar app_id variant_name tar_path host w) = inr image
    /\ docker_id image = d
    /\ tags image = t.
Proof.
  intros Hdisk Hback H200 Hbody Hd Ht.
  exists (mkImage d t). split; [| split; reflexivity].
  unfold send_docker_tar, bind.
  rewrite (with_open_post_tar_run _ _ _ _ _ _ Hdisk), Hback, H200. simpl.
  unfold lift, raise_for_status, response_json. rewrite H200, Hbody. simpl.
  now rewrite Hd, Ht.
Qed.

(** ** [start_variant] *)

(** [start_variant] issues exactly the request built from its arguments,
    whatever comes back. *)
Lemma start_variant_sent
    (variant_id host : string) (env_vars : option (list (string * string)))
    (w : World) :
  sent (snd (start_variant variant_id host env_vars w))
    = (sent w ++ [start_variant_request variant_id host env_vars])%list.
Proof.
  unfold start_variant, try_except_RequestException, bind.
  rewrite http_request_run.
  destruct (backend w _) as [e | r].
  - now destruct (is_RequestException e).
  - destruct (negb (status_code r =? 200)%Z);
      unfold lift, raise, response_json;
      destruct (body r) as [v | m]; simpl; try reflexivity;
      destruct v; simpl; try reflexivity;
      destruct (dict_lookup _ entries); reflexivity.
Qed.

(** C4: without an environment mapping [start_variant] sends the body
    [{"action": "START"}] and nothing else; with the mapping [{"FOO": "bar"}]
    it sends [{"action": "START", "env_vars": {"env_vars": {"FOO": "bar"}}}]. *)
Theorem start_variant_request_body (variant_id host : string) (w : World) :
  sent (snd (start_variant variant_id host None w))
    = (sent w ++
       [mkRequest PUT (host ++ "/variants/" ++ variant_id ++ "/")
          (Some (JDict [("action", JStr "START")])) [] [] 600])%list
  /\ sent (snd (start_variant variant_id host (Some [("FOO", "bar")]) w))
     = (sent w ++
        [mkRequest PUT (host ++ "/variants/" ++ variant_id ++ "/")
           (Some (JDict [("action", JStr "START");
                         ("env_vars",
                          JDict [("env_vars", JDict [("FOO", JStr "bar")])])]))
           [] [] 600])%list.
Proof.
  split; rewrite start_variant_sent; reflexivity.
Qed.

(** C10: an empty environment mapping is the same call as no mapping.  The
    two computations coincide, and what [start_variant] sends for the empty
    mapping is the one request whose body has the [action] entry only, with
    no [env_vars] key, whatever comes back. *)
Theorem start_variant_empty_env_is_none
    (variant_id host : string) (w : World) :
  start_variant variant_id host (Some []) = start_variant variant_id host None
  /\ sent (snd (start_variant variant_id host (Some []) w))
     = (sent w ++
        [mkRequest PUT (host ++ "/variants/" ++ variant_id ++ "/")
           (Some (JDict [("action", JStr "START")])) [] [] 600])%list
  /\ sent (snd (start_variant variant_id host (Some []) w))
     = sent (snd (start_variant variant_id host None w))
  /\ json (start_variant_request variant_id host (Some []))
     = Some (JDict [("action", JStr "START")])
  /\ json (start_variant_request variant_id host None)
     = Some (JDict [("action", JStr "START")]).
Proof.
  split; [reflexivity |].
  split; [rewrite start_variant_sent; reflexivity |].
  split; [rewrite !start_variant_sent; reflexivity |].
  split; reflexivity.
Qed.


(** ** [list_variants] *)

Lemma build_variants_map
    (objs : list (list (string * JSON))) (recs : list AppVariant) :
  Forall2 (fun o a => AppVariant_new o = inr a) objs recs ->
  build_variants (map JDict objs) = inr recs.
Proof.
  induction 1 as [| o a objs recs Ho _ IH]; simpl.
  - reflexivity.
  - now rewrite Ho, IH.
Qed.

(** Answered with status 200 and a JSON array of N objects the constructor
    accepts, [list_variants] returns N records, in the order of the array,
    the i-th being the record built from the i-th object. *)
Lemma list_variants_maps_constructor
    (app_id host : string) (w : World) (r : Response)
    (objs : list (list (string * JSON))) (recs : list AppVariant) :
  backend w (list_variants_request app_id host) = inr r ->
  status_code r = 200%Z ->
  body r = JsonBody (JList (map JDict objs)) ->
  Forall2 (fun o a => AppVariant_new o = inr a) objs recs ->
  fst (list_variants app_id host w) = inr recs
  /\ length recs = length objs
  /\ forall i o, nth_error objs i = Some o ->
       exists a, nth_error recs i = Some a /\ AppVariant_new o = inr a.
Proof.
  intros Hback H200 Hbody Hall.
  split; [| split].
  - unfold list_variants, bind.
    rewrite http_request_run, Hback, H200. simpl.
    unfold lift, response_json. rewrite Hbody. simpl.
    now rewrite (build_variants_map _ _ Hall).
  - symmetry. exact (Forall2_length Hall).
  - clear Hback H200 Hbody.
    induction Hall as [| o' a' objs recs Ho _ IH]; intros i o Hi.
    + now destruct i.
    + destruct i as [| i]; simpl in *.
      * injection Hi as <-. now exists a'.
      * now apply IH.
Qed.

(** ** What a call does to the world *)

(** The world after one request has been issued and nothing else touched. *)
Definition after_request (w : World) (req : Request) : World :=
  mkWorld (backend w) (disk w) (sent w ++ [req])
          (next_fd w) (open_fds w) (fs_log w).

(** Every descriptor in use is below the next one to be handed out. *)
Definition fds_fresh (w : World) : Prop :=
  Forall (fun fd => fd < next_fd w) (open_fds w).

(** Split a goal along every [match] it still contains. *)
Ltac crunch :=
  repeat match goal with
         | |- context [match ?x with _ => _ end] =>
             lazymatch x with
             | context [match _ with _ => _ end] => fail
             | _ => destruct x
             end
         end.

Ltac unfold_calls :=
  unfold outcome, run, get_app_by_name, create_new_app, add_variant_to_server,
    start_variant, list_variants, remove_variant, update_variant_image,
    try_except_RequestException, status_error, bind, lift, raise, ret,
    http_request.

(** The seven operations that do not upload change the world by the one
    request they issue, on every path. *)
Lemma non_upload_world (c : Call) (w : World) (req : Request) :
  is_send_docker_tar c = false ->
  call_request c w = Some req ->
  snd (run c w) = after_request w req.
Proof.
  intros Hc Hreq.
  destruct c; simpl in Hc; try discriminate; simpl in Hreq;
    injection Hreq as <-; unfold_calls; unfold after_request;
    crunch; reflexivity.
Qed.

(** The upload on a path that is not on disk: [open] fails, and that is all
    that happens. *)
Lemma send_docker_tar_no_file
    (app_id variant_name tar_path host : string) (w : World) :
  disk w tar_path = None ->
  send_docker_tar app_id variant_name tar_path host w
    = (inl (OSError ("[Errno 2] No such file or directory: "
                       ++ repr_str tar_path)), w).
Proof.
  intros Hdisk. unfold send_docker_tar, with_open, bind, open_rb.
  now rewrite Hdisk.
Qed.

(** The upload on an archive that exists: the world it leaves. *)
Lemma send_docker_tar_world
    (app_id variant_name tar_path host data : string) (w : World) :
  disk w tar_path = Some data ->
  snd (send_docker_tar app_id variant_name tar_path host w)
    = upload_world w tar_path data
        (send_docker_tar_request app_id variant_name host data).
Proof.
  intros Hdisk. unfold send_docker_tar, bind.
  rewrite (with_open_post_tar_run _ _ _ _ _ _ Hdisk).
  unfold lift, raise. crunch; reflexivity.
Qed.

Lemma run_upload_world
    (app_id variant_name tar_path host data : string) (w : World) :
  disk w tar_path = Some data ->
  snd (run (CallSendDockerTar app_id variant_name tar_path host) w)
    = upload_world w tar_path data
        (send_docker_tar_request app_id variant_name host data).
Proof.
  intros Hdisk. unfold run, bind.
  pose proof (send_docker_tar_world app_id variant_name tar_path host data w
                Hdisk) as Hw.
  destruct (send_docker_tar app_id variant_name tar_path host w)
    as [[e | i] w']; simpl in Hw; subst w'; reflexivity.
Qed.

Lemma non_upload_has_request (c : Call) (w : World) :
  is_send_docker_tar c = false -> exists req, call_request c w = Some req.
Proof.
  intros Hc. destruct c; simpl in Hc; try discriminate; eexists; reflexivity.
Qed.

Lemma filter_keeps_fresh (n : nat) (l : list nat) :
  Forall (fun fd => fd < n) l ->
  filter (fun fd => negb (Nat.eqb n fd)) l = l.
Proof.
  induction 1 as [| fd l Hfd _ IH]; simpl; [reflexivity |].
  assert (Hne : Nat.eqb n fd = false) by (apply Nat.eqb_neq; lia).
  now rewrite Hne, IH.
Qed.

(** X1: a call that issues a request issues exactly that one, once, whatever
    the outcome: the list of requests sent grows by this single entry. *)
Theorem call_sends_exactly_one_request (c : Call) (w : World) (req : Request) :
  call_request c w = Some req ->
  sent (snd (run c w)) = (sent w ++ [req])%list.
Proof.
  intros Hreq.
  destruct (is_send_docker_tar c) eqn:Hc.
  - destruct c; try discriminate. simpl in Hreq.
    destruct (disk w tar_path) as [data |] eqn:Hdisk; [| discriminate].
    injection Hreq as <-.
    now rewrite (run_upload_world _ _ _ _ _ _ Hdisk), upload_world_sent.
  - now rewrite (non_upload_world c w req Hc Hreq).
Qed.

(** X2: the upload on a path that does not exist raises the error of [open]
    and leaves the world as it was: no request goes out, no handle is
    taken. *)
Theorem upload_without_archive
    (app_id variant_name tar_path host : string) (w : World) :
  disk w tar_path = None ->
  (exists msg,
      outcome (CallSendDockerTar app_id variant_name tar_path host) w
        = inl (OSError msg))
  /\ snd (run (CallSendDockerTar app_id variant_name tar_path host) w) = w.
Proof.
  intros Hdisk. unfold outcome, run, bind.
  rewrite (send_docker_tar_no_file _ _ _ _ _ Hdisk).
  split; [eexists |]; reflexivity.
Qed.

(** X3: the operations other than the upload never touch a file: the file
    log, the open handles, the descriptor counter and the disk are after the
    call what they were before. *)
Theorem non_upload_leaves_files_alone (c : Call) (w : World) :
  is_send_docker_tar c = false ->
  fs_log (snd (run c w)) = fs_log w
  /\ open_fds (snd (run c w)) = open_fds w
  /\ next_fd (snd (run c w)) = next_fd w
  /\ disk (snd (run c w)) = disk w.
Proof.
  intros Hc.
  destruct (non_upload_has_request c w Hc) as (req & Hreq).
  rewrite (non_upload_world c w req Hc Hreq).
  repeat split.
Qed.

(** X4: no call leaks a handle.  In a world whose open descriptors are all
    below the next one to be handed out, every call, the upload included and
    on every path, leaves the open handles as it found them, and the world
    it leaves is again of that kind. *)
Theorem call_preserves_open_handles (c : Call) (w : World) :
  fds_fresh w ->
  open_fds (snd (run c w)) = open_fds w /\ fds_fresh (snd (run c w)).
Proof.
  intros Hfresh.
  destruct (is_send_docker_tar c) eqn:Hc.
  - destruct c; try discriminate.
    destruct (disk w tar_path) as [data |] eqn:Hdisk.
    + rewrite (run_upload_world _ _ _ _ _ _ Hdisk). unfold fds_fresh.
      match goal with
      | |- context [upload_world w ?p ?d ?q] =>
          destruct (upload_world_handles w p d q) as [-> ->]
      end.
      simpl filter. rewrite Nat.eqb_refl. simpl.
      rewrite (filter_keeps_fresh _ _ Hfresh).
      split; [reflexivity |].
      eapply Forall_impl; [| exact Hfresh]. simpl. lia.
    + unfold run, bind.
      rewrite (send_docker_tar_no_file _ _ _ _ _ Hdisk). simpl.
      split; [reflexivity | exact Hfresh].
  - destruct (non_upload_has_request c w Hc) as (req & Hreq).
    rewrite (non_upload_world c w req Hc Hreq).
    split; [reflexivity | exact Hfresh].
Qed.

(** ** When a call returns, and what it lets through *)

(** X5: an operation other than the upload returns only when the backend
    answered with status 200: on a transport failure and on every other
    status, whatever the body, it raises. *)
Theorem call_returns_only_on_200
    (c : Call) (w : World) (req : Request) (x : Ret) :
  is_send_docker_tar c = false ->
  call_request c w = Some req ->
  outcome c w = inr x ->
  exists r, backend w req = inr r /\ status_code r = 200%Z.
Proof.
  intros Hc Hreq.
  destruct c; simpl in Hc; try discriminate; simpl in Hreq;
    injection Hreq as <-; unfold_calls;
    (destruct (backend w _) as [e | r] eqn:Hback; cbv beta iota;
     [ crunch; simpl; discriminate
     | destruct (status_code r =? 200)%Z eqn:Hst; unfold negb; cbv beta iota;
       [ intros _; exists r; split; [reflexivity | now apply Z.eqb_eq]
       | crunch; simpl; discriminate ] ]).
Qed.

(** X8: the operations other than [start_variant] do not catch anything: an
    exception raised by the HTTP call leaves the operation as it is. *)
Theorem transport_failure_propagates
    (c : Call) (w : World) (req : Request) (e : Exn) :
  is_start_variant c = false ->
  call_request c w = Some req ->
  backend w req = inl e ->
  outcome c w = inl e.
Proof.
  intros Hc Hreq Hback.
  destruct c; simpl in Hc; try discriminate; simpl in Hreq.
  1-6: injection Hreq as <-; unfold_calls; now rewrite Hback.
  destruct (disk w tar_path) as [data |] eqn:Hdisk; [| discriminate].
  injection Hreq as <-.
  unfold outcome, run, send_docker_tar, bind.
  now rewrite (with_open_post_tar_run _ _ _ _ _ _ Hdisk), Hback.
Qed.

(** X9: [start_variant] never lets a [RequestException] out, whatever the
    backend does and whatever the arguments are. *)
Theorem start_variant_raises_no_request_exception
    (variant_id host : string) (env_vars : option (list (string * string)))
    (w : World) (e : Exn) :
  fst (start_variant variant_id host env_vars w) = inl e ->
  is_RequestException e = false.
Proof.
  unfold start_variant, try_except_RequestException.
  destruct (bind _ _ w) as [[e' | u] w'].
  - destruct (is_RequestException e') eqn:He.
    + unfold raise. simpl. intros [= <-]. reflexivity.
    + simpl. intros [= <-]. exact He.
  - discriminate.
Qed.

(** X10: answered with status 200 and a JSON object, [start_variant]
    returns the [uri] entry of the object, and the empty string when the
    object has none. *)
Theorem start_variant_returns_uri
    (variant_id host : string) (env_vars : option (list (string * string)))
    (w : World) (r : Response) (entries : list (string * JSON)) :
  backend w (start_variant_request variant_id host env_vars) = inr r ->
  status_code r = 200%Z ->
  body r = JsonBody (JDict entries) ->
  fst (start_variant variant_id host env_vars w)
    = inr match dict_lookup "uri" entries with
          | Some uri => uri
          | None => JStr ""
          end.
Proof.
  intros Hback H200 Hbody. unfold_calls.
  rewrite Hback, H200. unfold response_json. rewrite Hbody. simpl.
  now destruct (dict_lookup "uri" entries).
Qed.

(** X11: answered with status 200 and a JSON object, [get_app_by_name] and
    [create_new_app] return the [app_id] entry of the object; when the
    object has no such entry they raise [KeyError] on that key. *)
Theorem app_id_of_response
    (app_name host : string) (w : World) (r : Response)
    (entries : list (string * JSON)) :
  status_code r = 200%Z ->
  body r = JsonBody (JDict entries) ->
  let result := match dict_lookup "app_id" entries with
                | Some app_id => inr app_id
                | None => inl (KeyError "app_id")
                end in
  (backend w (get_app_by_name_request app_name host) = inr r ->
   fst (get_app_by_name app_name host w) = result)
  /\ (backend w (create_new_app_request app_name host) = inr r ->
      fst (create_new_app app_name host w) = result).
Proof.
  intros H200 Hbody result. subst result.
  split; intros Hback; unfold_calls;
    rewrite Hback, H200; unfold response_json; rewrite Hbody; simpl;
    now destruct (dict_lookup "app_id" entries).
Qed.

(** X12: [remove_variant] and [update_variant_image] look at the status
    only: answered with status 200 they return, whatever the body is, even
    one that is not JSON. *)
Theorem status_200_is_enough
    (variant_id host : string) (image : Image) (w : World) (r : Response) :
  status_code r = 200%Z ->
  (backend w (remove_variant_request variant_id host) = inr r ->
   fst (remove_variant variant_id host w) = inr tt)
  /\ (backend w (update_variant_image_request variant_id image host) = inr r ->
      fst (update_variant_image variant_id image host w) = inr tt).
Proof.
  intros H200.
  split; intros Hback; unfold_calls; now rewrite Hback, H200.
Qed.

(** ** More on [list_variants] *)

Lemma build_variants_inv (items : list JSON) :
  forall recs,
    build_variants items = inr recs ->
    Forall2 (fun x a => AppVariant_of x = inr a) items recs.
Proof.
  induction items as [| x items IH]; simpl; intros recs H.
  - injection H as <-. constructor.
  - destruct (AppVariant_of x) as [e | a] eqn:Hx; [discriminate |].
    destruct (build_variants items) as [e | l]; [discriminate |].
    injection H as <-. constructor; [exact Hx | now apply IH].
Qed.

Lemma build_variants_first_failure
    (pre post : list JSON) (x : JSON) (e : Exn) :
  Forall (fun y => exists a, AppVariant_of y = inr a) pre ->
  AppVariant_of x = inl e ->
  build_variants (pre ++ x :: post) = inl e.
Proof.
  intros Hpre Hx.
  induction Hpre as [| y pre (a & Hy) _ IH]; simpl.
  - now rewrite Hx.
  - now rewrite Hy, IH.
Qed.

(** X13: [list_variants] is all or nothing.  When the body is a JSON array
    and the call returns, the status was 200, every element of the array was
    accepted by the constructor, and the result has one record per element,
    in order. *)
Theorem list_variants_returns_all
    (app_id host : string) (w : World) (r : Response)
    (items : list JSON) (recs : list AppVariant) :
  backend w (list_variants_request app_id host) = inr r ->
  body r = JsonBody (JList items) ->
  fst (list_variants app_id host w) = inr recs ->
  status_code r = 200%Z
  /\ Forall2 (fun x a => AppVariant_of x = inr a) items recs
  /\ length recs = length items.
Proof.
  intros Hback Hbody. unfold_calls. rewrite Hback.
  unfold response_json. rewrite Hbody.
  destruct (status_code r =? 200)%Z eqn:Hst; simpl; [| discriminate].
  intros Hrecs.
  assert (Hall : Forall2 (fun x a => AppVariant_of x = inr a) items recs).
  { apply build_variants_inv. now destruct (build_variants items). }
  split; [now apply Z.eqb_eq | split; [exact Hall |]].
  symmetry. exact (Forall2_length Hall).
Qed.

(** X14: the first element of the array the constructor refuses decides the
    outcome of [list_variants]: its error is raised, whatever follows it. *)
Theorem list_variants_first_failure
    (app_id host : string) (w : World) (r : Response)
    (pre post : list JSON) (x : JSON) (e : Exn) :
  backend w (list_variants_request app_id host) = inr r ->
  status_code r = 200%Z ->
  body r = JsonBody (JList (pre ++ x :: post)) ->
  Forall (fun y => exists a, AppVariant_of y = inr a) pre ->
  AppVariant_of x = inl e ->
  fst (list_variants app_id host w) = inl e.
Proof.
  intros Hback H200 Hbody Hpre Hx. unfold_calls.
  rewrite Hback, H200. unfold response_json. rewrite Hbody. simpl.
  now rewrite (build_variants_first_failure pre post x e Hpre Hx).
Qed.

(** ** More on the upload *)

Lemma raise_for_status_ok (r : Response) :
  ~ (400 <= status_code r < 600)%Z -> raise_for_status r = inr tt.
Proof.
  intros Hout. unfold raise_for_status.
  destruct ((400 <=? status_code r)%Z && (status_code r <? 500)%Z) eqn:H4.
  - apply andb_true_iff in H4. rewrite Z.leb_le, Z.ltb_lt in H4. lia.
  - destruct ((500 <=? status_code r)%Z && (status_code r <? 600)%Z) eqn:H5;
      [| reflexivity].
    apply andb_true_iff in H5. rewrite Z.leb_le, Z.ltb_lt in H5. lia.
Qed.

Lemma raise_for_status_error (r : Response) :
  (400 <= status_code r < 600)%Z ->
  exists msg, raise_for_status r = inl (HTTPError msg).
Proof.
  intros Hin. unfold raise_for_status.
  destruct ((400 <=? status_code r)%Z && (status_code r <? 500)%Z) eqn:H4;
    [eexists; reflexivity |].
  destruct ((500 <=? status_code r)%Z && (status_code r <? 600)%Z) eqn:H5;
    [eexists; reflexivity |].
  apply andb_false_iff in H4, H5.
  rewrite Z.leb_gt, Z.ltb_ge in H4, H5. lia.
Qed.

(** X6: when the upload returns.  With the archive on disk and a response
    in hand, [send_docker_tar] returns an image exactly when the status is
    outside 400..599 and the body decodes to JSON that [Image.parse_obj]
    accepts; the image returned is the parsed one. *)
Theorem upload_returns_iff
    (app_id variant_name tar_path host data : string) (w : World)
    (r : Response) (image : Image) :
  disk w tar_path = Some data ->
  backend w (send_docker_tar_request app_id variant_name host data) = inr r ->
  fst (send_docker_tar app_id variant_name tar_path host w) = inr image
  <-> (~ (400 <= status_code r < 600)%Z
       /\ exists j, body r = JsonBody j /\ Image_parse_obj j = inr image).
Proof.
  intros Hdisk Hback.
  unfold send_docker_tar, bind.
  rewrite (with_open_post_tar_run _ _ _ _ _ _ Hdisk), Hback.
  unfold lift, raise, response_json.
  split.
  - destruct (status_code r =? 500)%Z eqn:H500.
    + destruct (body r); simpl; discriminate.
    + destruct (Z_le_dec 400 (status_code r)) as [Hlo |];
        [destruct (Z_lt_dec (status_code r) 600) as [Hhi |] |].
      * destruct (raise_for_status_error r (conj Hlo Hhi)) as (msg & ->).
        simpl. discriminate.
      * rewrite raise_for_status_ok by lia.
        destruct (body r) as [j | m]; simpl; [| discriminate].
        intros Himg. split; [lia |]. exists j. split; [reflexivity |].
        now destruct (Image_parse_obj j).
      * rewrite raise_for_status_ok by lia.
        destruct (body r) as [j | m]; simpl; [| discriminate].
        intros Himg. split; [lia |]. exists j. split; [reflexivity |].
        now destruct (Image_parse_obj j).
  - intros (Hout & j & Hbody & Himg).
    assert (H500 : (status_code r =? 500)%Z = false)
      by (apply Z.eqb_neq; lia).
    rewrite H500, (raise_for_status_ok r Hout), Hbody. simpl.
    now rewrite Himg.
Qed.

(** X7: the diagnostic of status 500 needs a body that decodes: on status
    500 with a body that is not JSON, [send_docker_tar] raises the decoder's
    error and the diagnostic is not produced. *)
Theorem upload_500_undecodable
    (app_id variant_name tar_path host data : string) (w : World)
    (r : Response) (m : string) :
  disk w tar_path = Some data ->
  backend w (send_docker_tar_request app_id variant_name host data) = inr r ->
  status_code r = 500%Z ->
  body r = NotJson m ->
  fst (send_docker_tar app_id variant_name tar_path host w)
    = inl (JSONDecodeError m).
Proof.
  intros Hdisk Hback H500 Hbody.
  unfold send_docker_tar, bind.
  rewrite (with_open_post_tar_run _ _ _ _ _ _ Hdisk), Hback, H500.
  unfold lift, raise, response_json. now rewrite Hbody.
Qed.

(** ** More on [start_variant] and [add_variant_to_server] *)

(** X15: the body [start_variant] sends, for every mapping and whatever
    comes back: its one request carries the [action] entry alone when the
    mapping is absent or empty, and otherwise the [action] entry followed by
    [env_vars], which holds the whole mapping under a second [env_vars]
    key. *)
Theorem start_variant_payload_shape
    (variant_id host : string) (env_vars : option (list (string * string)))
    (w : World) :
  sent (snd (start_variant variant_id host env_vars w))
    = (sent w ++
       [mkRequest PUT (host ++ "/variants/" ++ variant_id ++ "/")
          (Some (JDict (("action", JStr "START")
                          :: match env_vars with
                             | Some (e :: rest) =>
                                 [("env_vars",
                                   JDict [("env_vars",
                                           json_of_env (e :: rest))])]
                             | _ => []
                             end)))
          [] [] 600])%list.
Proof.
  rewrite start_variant_sent.
  destruct env_vars as [[| e rest] |]; reflexivity.
Qed.

(** X16: answered with status 200, [add_variant_to_server] returns the
    decoded body as it is, of whatever JSON type; the body it sent names the
    variant and the image, with [base_name] and [config_name] set to null. *)
Theorem add_variant_to_server_returns_body
    (app_id variant_name host : string) (image : Image) (w : World)
    (r : Response) (v : JSON) :
  backend w (add_variant_to_server_request app_id variant_name image host)
    = inr r ->
  status_code r = 200%Z ->
  body r = JsonBody v ->
  fst (add_variant_to_server app_id variant_name image host w) = inr v
  /\ sent (snd (add_variant_to_server app_id variant_name image host w))
     = (sent w ++
        [mkRequest POST
           (host ++ "/" ++ BACKEND_URL_SUFFIX ++ "/apps/" ++ app_id
                 ++ "/variant/from-image/")
           (Some (JDict [("variant_name", JStr variant_name);
                         ("docker_id", JStr (docker_id image));
                         ("tags", JStr (tags image));
                         ("base_name", JNull);
                         ("config_name", JNull)]))
           [] [] 600])%list.
Proof.
  intros Hback H200 Hbody. unfold_calls.
  rewrite Hback, H200. unfold response_json. rewrite Hbody. simpl.
  split; reflexivity.
Qed.

(** X17: [start_variant] expects a JSON object.  Answered with a body that
    decodes to anything else, on any status, it raises the [AttributeError]
    of the failed [get], which its handler does not catch. *)
Theorem start_variant_needs_object
    (variant_id host : string) (env_vars : option (list (string * string)))
    (w : World) (r : Response) (v : JSON) :
  backend w (start_variant_request variant_id host env_vars) = inr r ->
  body r = JsonBody v ->
  is_object v = false ->
  fst (start_variant variant_id host env_vars w)
    = inl (AttributeError
             ("'" ++ py_type_name v ++ "' object has no attribute 'get'")).
Proof.
  intros Hback Hbody Hobj. unfold_calls.
  rewrite Hback. unfold response_json. rewrite Hbody.
  destruct (negb (status_code r =? 200)%Z);
    destruct v; try discriminate; reflexivity.
Qed.

End Client.

(** ** [list_variants] on the spec-modelled record *)

Lemma sample_variants_of_objects (objs : list (list (string * JSON))) :
  Forall is_variant_object objs ->
  exists recs,
    Forall2 (fun o a => SampleVariant_new o = inr a) objs recs
    /\ Forall2 same_fields objs recs.
Proof.
  induction 1 as [| o objs (i & n & Hi & Hn) _ (recs & Hnew & Hsame)].
  - exists []. split; constructor.
  - exists (mkSampleVariant i n :: recs). split; constructor; try assumption.
    + unfold SampleVariant_new. now rewrite Hi, Hn.
    + split; assumption.
Qed.

(** C5: answered with status 200 and a JSON array of N variant objects,
    [list_variants] returns N records, in the order of the array, and each
    record agrees with its object field for field: its [variant_id] and its
    [variant_name] are the values the object has under these keys. *)
Theorem list_variants_round_trip
    (suffix app_id host : string) (w : World) (r : Response)
    (objs : list (list (string * JSON))) :
  backend w (list_variants_request suffix app_id host) = inr r ->
  status_code r = 200%Z ->
  body r = JsonBody (JList (map JDict objs)) ->
  Forall is_variant_object objs ->
  exists recs,
    fst (list_variants suffix SampleVariant SampleVariant_new app_id host w)
      = inr recs
    /\ length recs = length objs
    /\ Forall2 same_fields objs recs.
Proof.
  intros Hback H200 Hbody Hobjs.
  destruct (sample_variants_of_objects objs Hobjs) as (recs & Hnew & Hsame).
  exists recs.
  destruct (list_variants_maps_constructor suffix SampleVariant
              SampleVariant_new app_id host w r objs recs
              Hback H200 Hbody Hnew) as (Hret & Hlen & _).
  repeat split; assumption.
Qed.

(** ** The client on the sample worlds *)

(** The scenario of the spec: creating [demo] against a backend that answers
    [{"app_id": "a1"}] with status 200 gives [a1]. *)
Example create_new_app_demo :
  fst (create_new_app "api" "demo" "http://localhost"
         (world_of (mock_backend resp_200_app)))
    = inr (JStr "a1").
Proof. reflexivity. Qed.

(** The same call answered with status 400 and [{"detail": "duplicate name"}]. *)
Example create_new_app_duplicate :
  fst (create_new_app "api" "demo" "http://localhost"
         (world_of (mock_backend resp_400_duplicate)))
    = inl (APIRequestError
             "Request to create new app failed with status code 400 and error message: {'detail': 'duplicate name'}.").
Proof. reflexivity. Qed.

Lemma failed_status_raises_api_error_witness :
  raises_status_error "api" SampleVariant SampleVariant_new
    (CallCreateNewApp "demo" "http://localhost")
    (world_of (mock_backend resp_400_duplicate))
    resp_400_duplicate
    (JDict [("detail", JStr "duplicate name")]).
Proof.
  apply (failed_status_raises_api_error "api" SampleVariant SampleVariant_new
           (CallCreateNewApp "demo" "http://localhost")
           (world_of (mock_backend resp_400_duplicate))
           (create_new_app_request "api" "demo" "http://localhost")
           resp_400_duplicate
           (JDict [("detail", JStr "duplicate name")])).
  - reflexivity.
  - reflexivity.
  - reflexivity.
  - simpl. discriminate.
  - reflexivity.
  - discriminate.
Defined.

(** C1 fails on the upload: answered with status 500 and a JSON payload,
    [send_docker_tar] raises a bare exception, not an [APIRequestError]. *)
Lemma upload_500_is_not_api_error :
  is_success (status_code resp_500_build) = false
  /\ outcome "api" SampleVariant SampleVariant_new
       (CallSendDockerTar "a1" "v1" "build.tar" "http://localhost")
       (world_of (mock_backend resp_500_build))
     = inl (PyException (build_failure_message (JDict [("detail", JStr "boom")])))
  /\ ~ raises_status_error "api" SampleVariant SampleVariant_new
         (CallSendDockerTar "a1" "v1" "build.tar" "http://localhost")
         (world_of (mock_backend resp_500_build))
         resp_500_build
         (JDict [("detail", JStr "boom")]).
Proof.
  split; [reflexivity | split; [reflexivity |]].
  intros (msg & Hout & _).
  vm_compute in Hout. discriminate Hout.
Qed.

Lemma send_docker_tar_error_kinds_witness :
  (exists msg,
      fst (send_docker_tar "api" "a1" "v1" "build.tar" "http://localhost"
             (world_of (mock_backend resp_500_build)))
        = inl (PyException msg)
      /\ contains "Serving the variant failed" msg
      /\ contains "Docker logs" msg)
  /\ (exists msg,
         fst (send_docker_tar "api" "a1" "v1" "build.tar" "http://localhost"
                (world_of (mock_backend resp_503_build)))
           = inl (HTTPError msg)
         /\ raise_for_status resp_503_build = inl (HTTPError msg)).
Proof.
  split.
  - apply (proj1 (send_docker_tar_error_kinds "api" "a1" "v1" "build.tar"
                    "http://localhost" "tar-bytes"
                    (world_of (mock_backend resp_500_build)) resp_500_build
                    eq_refl eq_refl)
             eq_refl (JDict [("detail", JStr "boom")]) eq_refl).
  - apply (send_docker_tar_error_kinds "api" "a1" "v1" "build.tar"
             "http://localhost" "tar-bytes"
             (world_of (mock_backend resp_503_build)) resp_503_build).
    + reflexivity.
    + reflexivity.
    + simpl. discriminate.
    + simpl. lia.
Defined.

(** C2 fails outside 400..599: answered with status 300 and an image as
    body, [send_docker_tar] raises nothing and returns the image. *)
Lemma upload_300_raises_nothing :
  is_success (status_code resp_300_image) = false
  /\ status_code resp_300_image <> 500%Z
  /\ fst (send_docker_tar "api" "a1" "v1" "build.tar" "http://localhost"
            (world_of (mock_backend resp_300_image)))
     = inr (mkImage "sha256:abc" "demo:latest").
Proof.
  split; [reflexivity | split; [discriminate | reflexivity]].
Qed.



Lemma list_variants_round_trip_witness :
  exists recs,
    fst (list_variants "api" SampleVariant SampleVariant_new "a1"
           "http://localhost" (world_of (mock_backend resp_200_variants)))
      = inr recs
    /\ length recs = length sample_variant_objects
    /\ Forall2 same_fields sample_variant_objects recs.
Proof.
  apply (list_variants_round_trip "api" "a1" "http://localhost"
           (world_of (mock_backend resp_200_variants)) resp_200_variants
           sample_variant_objects).
  - reflexivity.
  - reflexivity.
  - reflexivity.
  - repeat constructor.
    + exists "1", "v1". split; reflexivity.
    + exists "2", "v2". split; reflexivity.
Defined.

Lemma failed_status_carries_payload_witness :
  let c := CallStartVariant "1" "http://localhost" None in
  let w := world_of (mock_backend resp_404_variant) in
  (forall v,
      body resp_404_variant = JsonBody v ->
      (is_start_variant c = true -> is_object v = true) ->
      exists msg,
        outcome "api" SampleVariant SampleVariant_new c w
          = inl (APIRequestError msg)
        /\ contains (py_str (reported_payload c v)) msg)
  /\ (forall entries,
         body resp_404_variant = JsonBody (JDict entries) ->
         is_start_variant c = true ->
         reported_payload c (JDict entries)
           = match dict_lookup "detail" entries with
             | Some detail => detail
             | None => JStr "Unknown error"
             end)
  /\ (forall m,
         body resp_404_variant = NotJson m ->
         is_start_variant c = true ->
         exists msg,
           outcome "api" SampleVariant SampleVariant_new c w
             = inl (APIRequestError msg)
           /\ contains m msg).
Proof.
  apply (failed_status_carries_payload "api" SampleVariant SampleVariant_new
           (CallStartVariant "1" "http://localhost" None)
           (world_of (mock_backend resp_404_variant))
           (start_variant_request "1" "http://localhost" None)
           resp_404_variant).
  - reflexivity.
  - reflexivity.
  - reflexivity.
  - simpl. discriminate.
Defined.

(** C6 fails on the upload: answered with status 503 and a JSON payload,
    [send_docker_tar] raises the error of the HTTP layer, which is no
    [APIRequestError] and has nothing of the payload in its message. *)
Lemma upload_503_drops_payload :
  is_success (status_code resp_503_build) = false
  /\ body resp_503_build = JsonBody (JDict [("detail", JStr "busy")])
  /\ outcome "api" SampleVariant SampleVariant_new
       (CallSendDockerTar "a1" "v1" "build.tar" "http://localhost")
       (world_of (mock_backend resp_503_build))
     = inl (HTTPError
              "503 Server Error: Service Unavailable for url: http://localhost/api/containers/build_image/?app_id=a1&&variant_name=v1")
  /\ ~ contains (py_str (JDict [("detail", JStr "busy")]))
        "503 Server Error: Service Unavailable for url: http://localhost/api/containers/build_image/?app_id=a1&&variant_name=v1"
  /\ ~ contains "busy"
        "503 Server Error: Service Unavailable for url: http://localhost/api/containers/build_image/?app_id=a1&&variant_name=v1".
Proof.
  split; [reflexivity |].
  split; [reflexivity |].
  split; [reflexivity |].
  split; intros H; apply contains_occurs in H; vm_compute in H; discriminate H.
Qed.

(** [get_app_by_name] answered with status 404 and an HTML page: the
    decoder's error is what comes out, and no [APIRequestError]. *)
Lemma not_json_body_is_not_api_error :
  is_success (status_code resp_404_html) = false
  /\ outcome "api" SampleVariant SampleVariant_new
       (CallGetAppByName "demo" "http://localhost")
       (world_of (mock_backend resp_404_html))
     = inl (JSONDecodeError "Expecting value: line 1 column 1 (char 0)")
  /\ ~ exists msg,
         outcome "api" SampleVariant SampleVariant_new
           (CallGetAppByName "demo" "http://localhost")
           (world_of (mock_backend resp_404_html))
         = inl (APIRequestError msg).
Proof.
  split; [reflexivity | split; [reflexivity |]].
  intros (msg & Hout). vm_compute in Hout. discriminate Hout.
Qed.

(** C7 against the code: the URL of the upload joins its two query
    parameters with a doubled ampersand, so it is not the URL with the single
    separator. *)
Theorem send_docker_tar_url_doubled_separator :
  url (send_docker_tar_request "api" "a1" "v1" "http://localhost" "tar-bytes")
    = "http://localhost/api/containers/build_image/?app_id=a1&&variant_name=v1"
  /\ url (send_docker_tar_request "api" "a1" "v1" "http://localhost" "tar-bytes")
     <> "http://localhost/api/containers/build_image/?app_id=a1&variant_name=v1"
  /\ sent (snd (send_docker_tar "api" "a1" "v1" "build.tar" "http://localhost"
                  (world_of (mock_backend resp_200_image))))
     = [mkRequest POST
          "http://localhost/api/containers/build_image/?app_id=a1&&variant_name=v1"
          None [] [("tar_file", "tar-bytes")] 1200].
Proof.
  split; [reflexivity | split; [discriminate | reflexivity]].
Qed.

Lemma send_docker_tar_returns_image_witness :
  exists image,
    fst (send_docker_tar "api" "a1" "v1" "build.tar" "http://localhost"
           (world_of (mock_backend resp_200_image)))
      = inr image
    /\ docker_id image = "sha256:abc"
    /\ tags image = "demo:latest".
Proof.
  apply (send_docker_tar_returns_image "api" "a1" "v1" "build.tar"
           "http://localhost" "tar-bytes"
           (world_of (mock_backend resp_200_image)) resp_200_image
           [("docker_id", JStr "sha256:abc"); ("tags", JStr "demo:latest")]).
  - reflexivity.
  - reflexivity.
  - reflexivity.
  - reflexivity.
  - reflexivity.
  - reflexivity.
Defined.



(** ** The further properties on the sample worlds *)

Lemma call_sends_exactly_one_request_witness :
  sent (snd (run "api" SampleVariant SampleVariant_new
               (CallSendDockerTar "a1" "v1" "build.tar" "http://localhost")
               (world_of (mock_backend resp_500_build))))
    = ([] ++ [send_docker_tar_request "api" "a1" "v1" "http://localhost"
                "tar-bytes"])%list.
Proof.
  apply (call_sends_exactly_one_request "api" SampleVariant SampleVariant_new
           (CallSendDockerTar "a1" "v1" "build.tar" "http://localhost")
           (world_of (mock_backend resp_500_build))).
  reflexivity.
Defined.

Lemma upload_without_archive_witness :
  (exists msg,
      outcome "api" SampleVariant SampleVariant_new
        (CallSendDockerTar "a1" "v1" "missing.tar" "http://localhost")
        (world_of (mock_backend resp_200_image))
        = inl (OSError msg))
  /\ snd (run "api" SampleVariant SampleVariant_new
            (CallSendDockerTar "a1" "v1" "missing.tar" "http://localhost")
            (world_of (mock_backend resp_200_image)))
     = world_of (mock_backend resp_200_image).
Proof.
  apply (upload_without_archive "api" SampleVariant SampleVariant_new
           "a1" "v1" "missing.tar" "http://localhost"
           (world_of (mock_backend resp_200_image))).
  reflexivity.
Defined.

Lemma non_upload_leaves_files_alone_witness :
  let c := CallRemoveVariant "1" "http://localhost" in
  let w := busy_world (mock_backend resp_404_variant) in
  let w' := snd (run "api" SampleVariant SampleVariant_new c w) in
  fs_log w' = fs_log w
  /\ open_fds w' = open_fds w
  /\ next_fd w' = next_fd w
  /\ disk w' = disk w.
Proof.
  apply (non_upload_leaves_files_alone "api" SampleVariant SampleVariant_new
           (CallRemoveVariant "1" "http://localhost")
           (busy_world (mock_backend resp_404_variant))).
  reflexivity.
Defined.

Lemma call_preserves_open_handles_witness :
  let c := CallSendDockerTar "a1" "v1" "build.tar" "http://localhost" in
  let w := busy_world refusing_backend in
  let w' := snd (run "api" SampleVariant SampleVariant_new c w) in
  open_fds w' = open_fds w /\ fds_fresh w'.
Proof.
  apply (call_preserves_open_handles "api" SampleVariant SampleVariant_new
           (CallSendDockerTar "a1" "v1" "build.tar" "http://localhost")
           (busy_world refusing_backend)).
  unfold fds_fresh. simpl. repeat constructor.
Defined.

Lemma call_returns_only_on_200_witness :
  exists r,
    backend (world_of (mock_backend resp_200_app))
      (create_new_app_request "api" "demo" "http://localhost") = inr r
    /\ status_code r = 200%Z.
Proof.
  apply (call_returns_only_on_200 "api" SampleVariant SampleVariant_new
           (CallCreateNewApp "demo" "http://localhost")
           (world_of (mock_backend resp_200_app))
           (create_new_app_request "api" "demo" "http://localhost")
           (RJson SampleVariant (JStr "a1"))).
  - reflexivity.
  - reflexivity.
  - reflexivity.
Defined.

Lemma upload_returns_iff_witness :
  fst (send_docker_tar "api" "a1" "v1" "build.tar" "http://localhost"
         (world_of (mock_backend resp_300_image)))
    = inr (mkImage "sha256:abc" "demo:latest")
  <-> (~ (400 <= status_code resp_300_image < 600)%Z
       /\ exists j,
            body resp_300_image = JsonBody j
            /\ Image_parse_obj j = inr (mkImage "sha256:abc" "demo:latest")).
Proof.
  apply (upload_returns_iff "api" "a1" "v1" "build.tar" "http://localhost"
           "tar-bytes" (world_of (mock_backend resp_300_image))
           resp_300_image (mkImage "sha256:abc" "demo:latest")).
  - reflexivity.
  - reflexivity.
Defined.

Lemma upload_500_undecodable_witness :
  fst (send_docker_tar "api" "a1" "v1" "build.tar" "http://localhost"
         (world_of (mock_backend resp_500_html)))
    = inl (JSONDecodeError "Expecting value: line 1 column 1 (char 0)").
Proof.
  apply (upload_500_undecodable "api" "a1" "v1" "build.tar" "http://localhost"
           "tar-bytes" (world_of (mock_backend resp_500_html)) resp_500_html).
  - reflexivity.
  - reflexivity.
  - reflexivity.
  - reflexivity.
Defined.

Lemma transport_failure_propagates_witness :
  outcome "api" SampleVariant SampleVariant_new
    (CallGetAppByName "demo" "http://localhost") (world_of refusing_backend)
    = inl (ConnectionError "Connection refused").
Proof.
  apply (transport_failure_propagates "api" SampleVariant SampleVariant_new
           (CallGetAppByName "demo" "http://localhost")
           (world_of refusing_backend)
           (get_app_by_name_request "api" "demo" "http://localhost")).
  - reflexivity.
  - reflexivity.
  - reflexivity.
Defined.

Lemma start_variant_raises_no_request_exception_witness :
  is_RequestException
    (APIRequestError
       "An error occurred while making the request: Connection refused")
    = false.
Proof.
  apply (start_variant_raises_no_request_exception "1" "http://localhost" None
           (world_of refusing_backend)).
  reflexivity.
Defined.

Lemma start_variant_returns_uri_witness :
  fst (start_variant "1" "http://localhost" None
         (world_of (mock_backend resp_200_uri)))
    = inr match dict_lookup "uri" [("uri", JStr "http://localhost:8001")] with
          | Some uri => uri
          | None => JStr ""
          end.
Proof.
  apply (start_variant_returns_uri "1" "http://localhost" None
           (world_of (mock_backend resp_200_uri)) resp_200_uri).
  - reflexivity.
  - reflexivity.
  - reflexivity.
Defined.

Lemma app_id_of_response_witness :
  fst (get_app_by_name "api" "demo" "http://localhost"
         (world_of (mock_backend resp_200_app)))
    = inr (JStr "a1")
  /\ fst (create_new_app "api" "demo" "http://localhost"
            (world_of (mock_backend resp_200_uri)))
     = inl (KeyError "app_id").
Proof.
  split.
  - apply (app_id_of_response "api" "demo" "http://localhost"
             (world_of (mock_backend resp_200_app)) resp_200_app
             [("app_id", JStr "a1")] eq_refl eq_refl).
    reflexivity.
  - apply (app_id_of_response "api" "demo" "http://localhost"
             (world_of (mock_backend resp_200_uri)) resp_200_uri
             [("uri", JStr "http://localhost:8001")] eq_refl eq_refl).
    reflexivity.
Defined.

Lemma status_200_is_enough_witness :
  fst (remove_variant "api" "1" "http://localhost"
         (world_of (mock_backend resp_200_no_body)))
    = inr tt
  /\ fst (update_variant_image "api" "1" (mkImage "sha256:abc" "demo:latest")
            "http://localhost" (world_of (mock_backend resp_200_no_body)))
     = inr tt.
Proof.
  destruct (status_200_is_enough "api" "1" "http://localhost"
              (mkImage "sha256:abc" "demo:latest")
              (world_of (mock_backend resp_200_no_body)) resp_200_no_body
              eq_refl) as [Hremove Hupdate].
  split; [apply Hremove | apply Hupdate]; reflexivity.
Defined.

Lemma list_variants_returns_all_witness :
  status_code resp_200_variants = 200%Z
  /\ Forall2 (fun x a => AppVariant_of SampleVariant SampleVariant_new x = inr a)
       (map JDict sample_variant_objects)
       [mkSampleVariant "1" "v1"; mkSampleVariant "2" "v2"]
  /\ length [mkSampleVariant "1" "v1"; mkSampleVariant "2" "v2"]
     = length (map JDict sample_variant_objects).
Proof.
  apply (list_variants_returns_all "api" SampleVariant SampleVariant_new "a1"
           "http://localhost" (world_of (mock_backend resp_200_variants))
           resp_200_variants).
  - reflexivity.
  - reflexivity.
  - reflexivity.
Defined.

Lemma list_variants_first_failure_witness :
  fst (list_variants "api" SampleVariant SampleVariant_new "a1"
         "http://localhost" (world_of (mock_backend resp_200_bad_variants)))
    = inl (TypeError
             "agenta.client.api_models.AppVariant() argument after ** must be a mapping, not int").
Proof.
  apply (list_variants_first_failure "api" SampleVariant SampleVariant_new
           "a1" "http://localhost"
           (world_of (mock_backend resp_200_bad_variants))
           resp_200_bad_variants
           [JDict [("variant_id", JStr "1"); ("variant_name", JStr "v1")]]
           [JDict [("variant_id", JStr "2"); ("variant_name", JStr "v2")]]
           (JInt 7)).
  - reflexivity.
  - reflexivity.
  - reflexivity.
  - constructor; [| constructor].
    exists (mkSampleVariant "1" "v1"). reflexivity.
  - reflexivity.
Defined.

Lemma add_variant_to_server_returns_body_witness :
  let image := mkImage "sha256:abc" "demo:latest" in
  let w := world_of (mock_backend resp_200_app) in
  fst (add_variant_to_server "api" "a1" "v1" image "http://localhost" w)
    = inr (JDict [("app_id", JStr "a1")])
  /\ sent (snd (add_variant_to_server "api" "a1" "v1" image
                  "http://localhost" w))
     = (sent w ++
        [mkRequest POST
           ("http://localhost" ++ "/" ++ "api" ++ "/apps/" ++ "a1"
              ++ "/variant/from-image/")
           (Some (JDict [("variant_name", JStr "v1");
                         ("docker_id", JStr (docker_id image));
                         ("tags", JStr (tags image));
                         ("base_name", JNull);
                         ("config_name", JNull)]))
           [] [] 600])%list.
Proof.
  apply (add_variant_to_server_returns_body "api" "a1" "v1" "http://localhost"
           (mkImage "sha256:abc" "demo:latest")
           (world_of (mock_backend resp_200_app)) resp_200_app).
  - reflexivity.
  - reflexivity.
  - reflexivity.
Defined.

Lemma start_variant_needs_object_witness :
  fst (start_variant "1" "http://localhost" None
         (world_of (mock_backend resp_502_list)))
    = inl (AttributeError "'list' object has no attribute 'get'").
Proof.
  apply (start_variant_needs_object "1" "http://localhost" None
           (world_of (mock_backend resp_502_list)) resp_502_list
           (JList [JStr "bad gateway"])).
  - reflexivity.
  - reflexivity.
  - reflexivity.
Defined.
